(** * Trailarr frontend: media server settings

    A shallow embedding of
    - [src/app/models/mediaserver.ts]
    - [src/app/services/mediaserver.service.ts]
    - [src/app/settings/mediaservers/mediaservers.component.ts]
      ([EditMediaServerComponent])
    together with the properties of the selection logic of the service and
    of the test-before-submit workflow of the edit view. *)

From Stdlib Require Import ZArith List String Ascii Bool Lia DecimalString.
Import ListNotations.

Local Open Scope string_scope.
Local Open Scope Z_scope.

(* ===================================================================== *)
(** ** JavaScript built-ins used by the sources *)
(* ===================================================================== *)

Module JS.

(** A number as far as ids are concerned: [NaN] or an integral value.
  Ids are the backend's integer keys. *)
Inductive number :=
| NaN
| Num (z : Z).

(** The values an [unknown] input can hold. *)
Inductive value :=
| Undefined
| Null
| OfNumber (n : number)
| OfString (s : string).

Section ToNumber.
(** [StringToNumber] of the language; it is not re-implemented here. *)
Variable StringToNumber : string -> number.

(** [Number(value)] *)
Definition Number (v : value) : number :=
  match v with
  | Undefined => NaN
  | Null => Num 0
  | OfNumber n => n
  | OfString s => StringToNumber s
  end.
End ToNumber.

Definition isNaN (n : number) : bool :=
  match n with NaN => true | Num _ => false end.

(** The integral value of a number that is not [NaN]. *)
Definition integer (n : number) : Z :=
  match n with NaN => 0 | Num z => z end.

(** [`${id}`] for an integral number. *)
Definition toString (z : Z) : string := NilZero.string_of_int (Z.to_int z).

Definition toLowerCase_char (c : ascii) : ascii :=
  let n := nat_of_ascii c in
  if ((65 <=? n) && (n <=? 90))%nat then ascii_of_nat (n + 32) else c.

(** [s.toLowerCase()]; only [A]-[Z] have a lower-case form that is an
    ASCII letter, which is all that a search for an ASCII word needs. *)
Fixpoint toLowerCase (s : string) : string :=
  match s with
  | EmptyString => EmptyString
  | String c r => String (toLowerCase_char c) (toLowerCase r)
  end.

(** [s.startsWith(p)] *)
Definition startsWith (s p : string) : bool := String.prefix p s.

(** [s.includes(sub)] *)
Fixpoint includes (s sub : string) : bool :=
  String.prefix sub s
  || match s with
     | EmptyString => false
     | String _ r => includes r sub
     end.

(** [s.length] *)
Definition length (s : string) : nat := String.length s.

End JS.

(* ===================================================================== *)
(** ** models/mediaserver.ts *)
(* ===================================================================== *)

Inductive MediaServerType :=
| Emby
| Jellyfin
| Plex.

(** The string value of each member of the enum. *)
Definition MediaServerType_value (t : MediaServerType) : string :=
  match t with
  | Emby => "emby"
  | Jellyfin => "jellyfin"
  | Plex => "plex"
  end.

Module MediaServerCreate.
Record t := {
  name : string;
  server_type : MediaServerType;
  url : string;
  api_key : string;
  enabled : bool;
}.
End MediaServerCreate.

Module MediaServerRead.
Record t := {
  id : Z;
  name : string;
  server_type : MediaServerType;
  url : string;
  api_key : string;
  enabled : bool;
  added_at : string;
}.

(** A [MediaServerRead] used where a [MediaServerCreate] is expected. *)
Definition asCreate (s : t) : MediaServerCreate.t :=
  {| MediaServerCreate.name := name s;
     MediaServerCreate.server_type := server_type s;
     MediaServerCreate.url := url s;
     MediaServerCreate.api_key := api_key s;
     MediaServerCreate.enabled := enabled s |}.
End MediaServerRead.

Module MediaServerUpdate.
(** Every field is optional. *)
Record t := {
  name : option string;
  server_type : option MediaServerType;
  url : option string;
  api_key : option string;
  enabled : option bool;
}.

(** A [MediaServerCreate] used where a [MediaServerUpdate] is expected. *)
Definition ofCreate (c : MediaServerCreate.t) : t :=
  {| name := Some (MediaServerCreate.name c);
     server_type := Some (MediaServerCreate.server_type c);
     url := Some (MediaServerCreate.url c);
     api_key := Some (MediaServerCreate.api_key c);
     enabled := Some (MediaServerCreate.enabled c) |}.

(** All five fields are present. *)
Definition complete (u : t) : Prop :=
  name u <> None /\ server_type u <> None /\ url u <> None
  /\ api_key u <> None /\ enabled u <> None.
End MediaServerUpdate.

(* ===================================================================== *)
(** ** What a handler does to the outside world *)
(* ===================================================================== *)

(** The calls of the service that reach the backend. *)
Inductive HttpCall :=
| GetMediaServers                                   (* GET  mediaServersUrl *)
| PostMediaServer (data : MediaServerCreate.t)      (* POST mediaServersUrl *)
| DeleteMediaServer (id : Z)                        (* DELETE mediaServersUrl + id *)
| PostTest (data : MediaServerCreate.t)             (* POST mediaServersUrl + 'test' *)
| PutMediaServer (id : Z) (data : MediaServerUpdate.t) (* PUT mediaServersUrl + id *)
| PostRefresh (id : Z) (folderPath : string).       (* POST mediaServersUrl + id + '/refresh' *)

Inductive Dialog := CancelDialog | DeleteDialog.

Inductive Effect :=
| Http (c : HttpCall)
| ShowToast (message kind : string)
| Navigate (path : string)
| SetTimeout (ms : Z)
| ShowModal (d : Dialog)
| CloseModal (d : Dialog)
| MarkForCheck.

Definition isHttp (e : Effect) : bool :=
  match e with Http _ => true | _ => false end.

Definition isToast (e : Effect) : bool :=
  match e with ShowToast _ _ => true | _ => false end.

(** Handlers read and write the state of the object they belong to and
    act on the outside world: a state monad that logs its effects. *)
Definition Action (S A : Type) : Type := S -> A * S * list Effect.

Definition ret {S A} (a : A) : Action S A := fun s => (a, s, []).

Definition bind {S A B} (m : Action S A) (k : A -> Action S B) : Action S B :=
  fun s =>
    let '(a, s1, out1) := m s in
    let '(b, s2, out2) := k a s1 in
    (b, s2, (out1 ++ out2)%list).

Definition get {S} : Action S S := fun s => (s, s, []).
Definition modify {S} (f : S -> S) : Action S unit := fun s => (tt, f s, []).
Definition emit {S} (e : Effect) : Action S unit := fun s => (tt, s, [e]).

Definition result {S A} (r : A * S * list Effect) : A := fst (fst r).
Definition state {S A} (r : A * S * list Effect) : S := snd (fst r).
Definition effects {S A} (r : A * S * list Effect) : list Effect := snd r.

Declare Scope action_scope.
Delimit Scope action_scope with action.
Notation "x <- m ;; k" := (bind m (fun x => k))
  (at level 61, m at next level, right associativity) : action_scope.
Notation "m ;; k" := (bind m (fun _ => k))
  (at level 61, right associativity) : action_scope.
Local Open Scope action_scope.

(* ===================================================================== *)
(** ** services/mediaserver.service.ts *)
(* ===================================================================== *)

Module MediaServerService.

Record t := {
  (** [new Date().toISOString()] as read when the service was built *)
  constructedAt : string;
  (** [mediaServersResource.value()] *)
  mediaServersResource_value : list MediaServerRead.t;
  (** [mediaServersResource.isLoading()] *)
  mediaServersResource_isLoading : bool;
  mediaServerID : Z;
}.

Definition set_mediaServerID (v : Z) (s : t) : t :=
  {| constructedAt := constructedAt s;
     mediaServersResource_value := mediaServersResource_value s;
     mediaServersResource_isLoading := mediaServersResource_isLoading s;
     mediaServerID := v |}.

Definition set_resource (v : list MediaServerRead.t) (loading : bool) (s : t) : t :=
  {| constructedAt := constructedAt s;
     mediaServersResource_value := v;
     mediaServersResource_isLoading := loading;
     mediaServerID := mediaServerID s |}.

(** The service as its field initialisers leave it: the resource starts
    its first fetch with the default value [[]]. *)
Definition create (now : string) : t :=
  {| constructedAt := now;
     mediaServersResource_value := [];
     mediaServersResource_isLoading := true;
     mediaServerID := -1 |}.

(** [private readonly newMediaServer] *)
Definition newMediaServer (s : t) : MediaServerRead.t :=
  {| MediaServerRead.added_at := constructedAt s;
     MediaServerRead.api_key := "";
     MediaServerRead.enabled := true;
     MediaServerRead.id := -1;
     MediaServerRead.name := "";
     MediaServerRead.server_type := Emby;
     MediaServerRead.url := "" |}.

(** [readonly selectedMediaServer = computed(...)] *)
Definition selectedMediaServer (s : t) : MediaServerRead.t :=
  let server :=
    find (fun x => MediaServerRead.id x =? mediaServerID s)
         (mediaServersResource_value s) in
  match server with
  | Some server => server
  | None => newMediaServer s
  end.

(** [mediaServersResource.reload()] *)
Definition reload : Action t unit :=
  modify (fun s => set_resource (mediaServersResource_value s) true s) ;;
  emit (Http GetMediaServers).

Definition addMediaServer (mediaServer : MediaServerCreate.t) : Action t unit :=
  emit (Http (PostMediaServer mediaServer)).

Definition mediaServerExists (id : Z) : Action t bool :=
  s <- get ;;
  let exists_ :=
    existsb (fun x => MediaServerRead.id x =? id) (mediaServersResource_value s) in
  if exists_ then ret true
  else
    (if negb (id =? -1)
     then emit (ShowToast ("Media Server with ID '" ++ JS.toString id
                             ++ "' does not exist.") "error")
     else ret tt) ;;
    ret false.

Definition deleteMediaServer (id : Z) : Action t unit :=
  emit (Http (DeleteMediaServer id)).

Definition testMediaServer (mediaServer : MediaServerCreate.t) : Action t unit :=
  emit (Http (PostTest mediaServer)).

Definition updateMediaServer (id : Z) (mediaServer : MediaServerUpdate.t)
  : Action t unit :=
  emit (Http (PutMediaServer id mediaServer)).

Definition refreshLibrary (id : Z) (folderPath : string) : Action t unit :=
  emit (Http (PostRefresh id folderPath)).

End MediaServerService.


(* ===================================================================== *)
(** ** Validators of [@angular/forms/signals] *)
(* ===================================================================== *)

Module SignalForms.

(** Each validator gives [true] when the value passes.  The length and
    pattern validators do not judge an empty value: that is the business
    of [required]. *)
Definition isEmpty (s : string) : bool := (s =? "")%string.

Definition required (s : string) : bool := negb (isEmpty s).

Definition minLength (n : nat) (s : string) : bool :=
  isEmpty s || (n <=? JS.length s)%nat.

Definition maxLength (n : nat) (s : string) : bool :=
  isEmpty s || (JS.length s <=? n)%nat.

Definition pattern (test : string -> bool) (s : string) : bool :=
  isEmpty s || test s.

End SignalForms.

(* ===================================================================== *)
(** ** settings/mediaservers/mediaservers.component.ts *)
(* ===================================================================== *)

Module EditMediaServerComponent.

Record t := {
  (** [inject(MediaServerService)] *)
  mediaServerService : MediaServerService.t;
  (** the input [mediaServerId], after its transform *)
  mediaServerId : Z;
  (** the model of [mediaServerForm] *)
  mediaServerCreate : MediaServerCreate.t;
  (** [mediaServerForm().dirty()] *)
  dirty : bool;
  isCreate : bool;
  isConnectionTested : bool;
  isReadyToSubmit : bool;
  isSubmitting : bool;
  submitResult : string;
}.

Definition set_mediaServerService (v : MediaServerService.t) (c : t) : t :=
  {| mediaServerService := v; mediaServerId := mediaServerId c;
     mediaServerCreate := mediaServerCreate c; dirty := dirty c;
     isCreate := isCreate c; isConnectionTested := isConnectionTested c;
     isReadyToSubmit := isReadyToSubmit c; isSubmitting := isSubmitting c;
     submitResult := submitResult c |}.

Definition set_mediaServerId (v : Z) (c : t) : t :=
  {| mediaServerService := mediaServerService c; mediaServerId := v;
     mediaServerCreate := mediaServerCreate c; dirty := dirty c;
     isCreate := isCreate c; isConnectionTested := isConnectionTested c;
     isReadyToSubmit := isReadyToSubmit c; isSubmitting := isSubmitting c;
     submitResult := submitResult c |}.

Definition set_mediaServerCreate (v : MediaServerCreate.t) (c : t) : t :=
  {| mediaServerService := mediaServerService c; mediaServerId := mediaServerId c;
     mediaServerCreate := v; dirty := dirty c;
     isCreate := isCreate c; isConnectionTested := isConnectionTested c;
     isReadyToSubmit := isReadyToSubmit c; isSubmitting := isSubmitting c;
     submitResult := submitResult c |}.

Definition set_dirty (v : bool) (c : t) : t :=
  {| mediaServerService := mediaServerService c; mediaServerId := mediaServerId c;
     mediaServerCreate := mediaServerCreate c; dirty := v;
     isCreate := isCreate c; isConnectionTested := isConnectionTested c;
     isReadyToSubmit := isReadyToSubmit c; isSubmitting := isSubmitting c;
     submitResult := submitResult c |}.

Definition set_isCreate (v : bool) (c : t) : t :=
  {| mediaServerService := mediaServerService c; mediaServerId := mediaServerId c;
     mediaServerCreate := mediaServerCreate c; dirty := dirty c;
     isCreate := v; isConnectionTested := isConnectionTested c;
     isReadyToSubmit := isReadyToSubmit c; isSubmitting := isSubmitting c;
     submitResult := submitResult c |}.

Definition set_isConnectionTested (v : bool) (c : t) : t :=
  {| mediaServerService := mediaServerService c; mediaServerId := mediaServerId c;
     mediaServerCreate := mediaServerCreate c; dirty := dirty c;
     isCreate := isCreate c; isConnectionTested := v;
     isReadyToSubmit := isReadyToSubmit c; isSubmitting := isSubmitting c;
     submitResult := submitResult c |}.

Definition set_isReadyToSubmit (v : bool) (c : t) : t :=
  {| mediaServerService := mediaServerService c; mediaServerId := mediaServerId c;
     mediaServerCreate := mediaServerCreate c; dirty := dirty c;
     isCreate := isCreate c; isConnectionTested := isConnectionTested c;
     isReadyToSubmit := v; isSubmitting := isSubmitting c;
     submitResult := submitResult c |}.

Definition set_isSubmitting (v : bool) (c : t) : t :=
  {| mediaServerService := mediaServerService c; mediaServerId := mediaServerId c;
     mediaServerCreate := mediaServerCreate c; dirty := dirty c;
     isCreate := isCreate c; isConnectionTested := isConnectionTested c;
     isReadyToSubmit := isReadyToSubmit c; isSubmitting := v;
     submitResult := submitResult c |}.

Definition set_submitResult (v : string) (c : t) : t :=
  {| mediaServerService := mediaServerService c; mediaServerId := mediaServerId c;
     mediaServerCreate := mediaServerCreate c; dirty := dirty c;
     isCreate := isCreate c; isConnectionTested := isConnectionTested c;
     isReadyToSubmit := isReadyToSubmit c; isSubmitting := isSubmitting c;
     submitResult := v |}.

(** A method of the injected service, called from the component. *)
Definition onService {A} (m : Action MediaServerService.t A) : Action t A :=
  fun c =>
    let '(a, svc, out) := m (mediaServerService c) in
    (a, set_mediaServerService svc c, out).

(** The component as its field initialisers leave it, over the service
    it is given. *)
Definition create (svc : MediaServerService.t) : t :=
  {| mediaServerService := svc;
     mediaServerId := 0;
     mediaServerCreate :=
       {| MediaServerCreate.api_key := "";
          MediaServerCreate.enabled := true;
          MediaServerCreate.name := "";
          MediaServerCreate.server_type := Emby;
          MediaServerCreate.url := "" |};
     dirty := false;
     isCreate := false;
     isConnectionTested := false;
     isReadyToSubmit := false;
     isSubmitting := false;
     submitResult := "" |}.

(** The transform of the input [mediaServerId]. *)
Definition mediaServerId_transform (StringToNumber : string -> JS.number)
  (value : JS.value) : Z :=
  let num := JS.Number StringToNumber value in
  if JS.isNaN num then -1 else JS.integer num.

(** The router binds the inputs of a routed component from the route: an
    input no parameter matches is set to [undefined]. *)
Definition routeParameter (p : option string) : JS.value :=
  match p with
  | None => JS.Undefined
  | Some s => JS.OfString s
  end.

(** [/^https?:\/\/.*/.test(s)] *)
Definition urlPattern (s : string) : bool :=
  JS.startsWith s "http://" || JS.startsWith s "https://".

(** The schema of [mediaServerForm]: no rule reports an error on [m]. *)
Definition schema (m : MediaServerCreate.t) : bool :=
  SignalForms.required (MediaServerCreate.api_key m)
  && SignalForms.minLength 10 (MediaServerCreate.api_key m)
  && SignalForms.maxLength 200 (MediaServerCreate.api_key m)
  && SignalForms.required (MediaServerCreate.name m)
  && SignalForms.minLength 3 (MediaServerCreate.name m)
  && SignalForms.required (MediaServerCreate.url m)
  && SignalForms.minLength 5 (MediaServerCreate.url m)
  && SignalForms.pattern urlPattern (MediaServerCreate.url m).

(** [mediaServerForm().valid()] *)
Definition valid (c : t) : bool := schema (mediaServerCreate c).

Definition isLoading (c : t) : bool :=
  MediaServerService.mediaServersResource_isLoading (mediaServerService c).

(** [mediaServer = this.mediaServerService.selectedMediaServer] *)
Definition mediaServer (c : t) : MediaServerRead.t :=
  MediaServerService.selectedMediaServer (mediaServerService c).

Definition listRoute : string := "/settings/mediaservers".

Definition mediaServerIDeffect : Action t unit :=
  c <- get ;;
  let id := mediaServerId c in
  if isLoading c then ret tt
  else
    let setID := onService (modify (MediaServerService.set_mediaServerID id)) in
    if id =? -1 then
      modify (set_isCreate true) ;;
      setID
    else
      found <- onService (MediaServerService.mediaServerExists id) ;;
      if negb found then emit (Navigate listRoute)
      else setID.

Definition mediaServerEffect : Action t unit :=
  c <- get ;;
  if isSubmitting c then ret tt
  else
    let server := mediaServer c in
    (* [server] is an object, and [isSubmitting] has just been read *)
    if negb (isSubmitting c) then
      modify (set_mediaServerCreate (MediaServerRead.asCreate server)) ;;
      modify (set_isCreate (MediaServerRead.id server =? -1)) ;;
      modify (set_isConnectionTested false) ;;
      modify (set_isReadyToSubmit false) ;;
      modify (set_submitResult "") ;;
      emit MarkForCheck
    else ret tt.

Definition checkFormValidity : Action t bool :=
  c <- get ;;
  if negb (valid c) then
    modify (set_submitResult
              "Form is invalid, please correct the errors and try again.") ;;
    ret false
  else ret true.

Definition onCancel : Action t unit :=
  c <- get ;;
  if dirty c then emit (ShowModal CancelDialog)
  else emit (Navigate listRoute).

Definition onConfirmCancel : Action t unit :=
  emit (CloseModal CancelDialog) ;;
  emit (Navigate listRoute).

Definition newline : string := String (ascii_of_nat 10) EmptyString.

Definition createMediaServer : Action t unit :=
  ok <- checkFormValidity ;;
  if negb ok then ret tt
  else
    c <- get ;;
    if isSubmitting c then ret tt
    else
      modify (set_isSubmitting true) ;;
      modify (set_submitResult "Creating media server, please wait...") ;;
      c <- get ;;
      let data := mediaServerCreate c in
      onService (MediaServerService.addMediaServer data).

(** [next] of the subscription in [createMediaServer] *)
Definition createMediaServer_next : Action t unit :=
  modify (set_submitResult "Media server created successfully!") ;;
  emit (SetTimeout 2000).

(** [error] of the subscription in [createMediaServer]; [message] is
    [error.message || error]. *)
Definition createMediaServer_error (message : string) : Action t unit :=
  modify (set_isSubmitting false) ;;
  modify (set_submitResult ("Error creating media server: " ++ message)).

(** The callback handed to [setTimeout]: go to the list, then reload. *)
Definition navigateThenReload : Action t unit :=
  emit (Navigate listRoute) ;;
  onService MediaServerService.reload.

Definition deleteMediaServer : Action t unit :=
  c <- get ;;
  found <- onService (MediaServerService.mediaServerExists (mediaServerId c)) ;;
  if negb found then ret tt
  else onService (MediaServerService.deleteMediaServer (mediaServerId c)).

(** [next] of the subscription in [deleteMediaServer] *)
Definition deleteMediaServer_next : Action t unit :=
  modify (set_submitResult "Media server deleted successfully!") ;;
  onService MediaServerService.reload ;;
  emit (SetTimeout 2000).

(** [error] of the subscription in [deleteMediaServer] *)
Definition deleteMediaServer_error (message : string) : Action t unit :=
  modify (set_submitResult ("Error deleting media server: " ++ message)).

Definition onConfirmDelete : Action t unit :=
  emit (CloseModal DeleteDialog) ;;
  deleteMediaServer.

Definition testConnection : Action t unit :=
  ok <- checkFormValidity ;;
  if negb ok then ret tt
  else
    c <- get ;;
    let data := mediaServerCreate c in
    modify (set_submitResult "Testing connection...") ;;
    onService (MediaServerService.testMediaServer data).

(** [result.toLowerCase().includes('success')] *)
Definition reportsSuccess (result : string) : bool :=
  JS.includes (JS.toLowerCase result) "success".

(** [next] of the subscription in [testConnection] *)
Definition testConnection_next (result : string) : Action t unit :=
  modify (set_submitResult result) ;;
  if reportsSuccess result then
    modify (set_isConnectionTested true) ;;
    modify (set_isReadyToSubmit true) ;;
    modify (fun c =>
              set_submitResult
                (submitResult c ++ newline
                 ++ "Connection tested successfully. You can now submit.") c)
  else ret tt.

(** [error] of the subscription in [testConnection] *)
Definition testConnection_error (message : string) : Action t unit :=
  modify (set_submitResult ("Connection failed: " ++ message)).

Definition updateMediaServer : Action t unit :=
  ok <- checkFormValidity ;;
  if negb ok then ret tt
  else
    c <- get ;;
    if isSubmitting c then ret tt
    else
      modify (set_isSubmitting true) ;;
      modify (set_submitResult "Updating media server, please wait...") ;;
      c <- get ;;
      let data := mediaServerCreate c in
      onService (MediaServerService.updateMediaServer
                   (mediaServerId c) (MediaServerUpdate.ofCreate data)).

(** [next] of the subscription in [updateMediaServer] *)
Definition updateMediaServer_next : Action t unit :=
  modify (set_submitResult "Media server updated successfully!") ;;
  emit (SetTimeout 2000).

(** [error] of the subscription in [updateMediaServer] *)
Definition updateMediaServer_error (message : string) : Action t unit :=
  modify (set_isSubmitting false) ;;
  modify (set_submitResult ("Error updating media server: " ++ message)).

Definition onSubmit : Action t unit :=
  (* $event.preventDefault() *)
  ok <- checkFormValidity ;;
  if negb ok then ret tt
  else
    c <- get ;;
    if negb (isConnectionTested c) then testConnection
    else if isCreate c then createMediaServer
    else updateMediaServer.

(** *** The view as an event-driven machine *)

(** What can happen to the view: the router and the resource deliver
    values, the effects run, the user types and clicks, and the calls made
    earlier come back. *)
Inductive Event :=
| InputBound (id : Z)
| ResourceLoaded (servers : list MediaServerRead.t)
| RunMediaServerIDeffect
| RunMediaServerEffect
| FieldInput (model : MediaServerCreate.t)
| Submit
| Cancel
| ConfirmCancel
| ConfirmDelete
| TestNext (result : string)
| TestError (message : string)
| CreateNext
| CreateError (message : string)
| UpdateNext
| UpdateError (message : string)
| DeleteNext
| DeleteError (message : string)
| TimeoutFired.

Definition step (e : Event) : Action t unit :=
  match e with
  | InputBound id => modify (set_mediaServerId id)
  | ResourceLoaded servers =>
      onService (modify (MediaServerService.set_resource servers false))
  | RunMediaServerIDeffect => mediaServerIDeffect
  | RunMediaServerEffect => mediaServerEffect
  | FieldInput model =>
      modify (set_mediaServerCreate model) ;; modify (set_dirty true)
  | Submit => onSubmit
  | Cancel => onCancel
  | ConfirmCancel => onConfirmCancel
  | ConfirmDelete => onConfirmDelete
  | TestNext r => testConnection_next r
  | TestError m => testConnection_error m
  | CreateNext => createMediaServer_next
  | CreateError m => createMediaServer_error m
  | UpdateNext => updateMediaServer_next
  | UpdateError m => updateMediaServer_error m
  | DeleteNext => deleteMediaServer_next
  | DeleteError m => deleteMediaServer_error m
  | TimeoutFired => navigateThenReload
  end.

(** The events of a list in turn, from the first. *)
Fixpoint run (es : list Event) : Action t unit :=
  match es with
  | [] => ret tt
  | e :: es => step e ;; run es
  end.

(** The states the view can be in: those some run leads to from the
    freshly built component, whatever the service holds then. *)
Definition reachable (c : t) : Prop :=
  exists svc es, c = state (run es (create svc)).

End EditMediaServerComponent.

(* ===================================================================== *)
(** ** settings/mediaservers/show-mediaservers/show-mediaservers.component.ts *)
(* ===================================================================== *)

Module ShowMediaServersComponent.

Definition getServerTypeLogo (serverType : string) : string :=
  if (serverType =? "emby")%string then "assets/trailarr-64.png"
  else if (serverType =? "jellyfin")%string then "assets/trailarr-64.png"
  else if (serverType =? "plex")%string then "assets/trailarr-64.png"
  else "assets/trailarr-64.png".

End ShowMediaServersComponent.

(* ===================================================================== *)
(** ** Vocabulary of the properties *)
(* ===================================================================== *)

Import MediaServerService.

(** The snapshot holds [x] under the id [id]. *)
Definition holds (svc : MediaServerService.t) (id : Z) (x : MediaServerRead.t) : Prop :=
  In x (mediaServersResource_value svc) /\ MediaServerRead.id x = id.

(** The id [id] is present in, or absent from, the snapshot. *)
Definition present (svc : MediaServerService.t) (id : Z) : Prop :=
  exists x, holds svc id x.

Definition absent (svc : MediaServerService.t) (id : Z) : Prop :=
  forall x, In x (mediaServersResource_value svc) -> MediaServerRead.id x <> id.

(** No two entities of the snapshot share an id. *)
Definition uniqueIds (svc : MediaServerService.t) : Prop :=
  NoDup (map MediaServerRead.id (mediaServersResource_value svc)).

(** The HTTP calls among the effects of a handler. *)
Definition requests (out : list Effect) : list Effect := filter isHttp out.

(** The error notification of [mediaServerExists]. *)
Definition missingToast (id : Z) : Effect :=
  ShowToast ("Media Server with ID '" ++ JS.toString id ++ "' does not exist.")
            "error".

(** "[enabled = true] and empty strings in every other field (besides
    [id = -1])", read field by field. *)
Definition emptyPlaceholder (p : MediaServerRead.t) : Prop :=
  MediaServerRead.id p = -1
  /\ MediaServerRead.enabled p = true
  /\ MediaServerRead.name p = ""
  /\ MediaServerType_value (MediaServerRead.server_type p) = ""
  /\ MediaServerRead.url p = ""
  /\ MediaServerRead.api_key p = ""
  /\ MediaServerRead.added_at p = "".

(** The message shown next to the form when it is not valid. *)
Definition invalidMessage : string :=
  "Form is invalid, please correct the errors and try again.".

(** The form states C5 speaks of: an [api_key] of fewer than 10
    characters, a [url] that starts with neither [http://] nor [https://],
    or a [name] of fewer than 3 characters. *)
Definition rejected (m : MediaServerCreate.t) : Prop :=
  (JS.length (MediaServerCreate.api_key m) < 10)%nat
  \/ EditMediaServerComponent.urlPattern (MediaServerCreate.url m) = false
  \/ (JS.length (MediaServerCreate.name m) < 3)%nat.

(** The handler [h], run in [c], shows the message and does nothing else. *)
Definition blockedAt (c : EditMediaServerComponent.t)
  (h : Action EditMediaServerComponent.t unit) : Prop :=
  effects (h c) = []
  /\ state (h c) = EditMediaServerComponent.set_submitResult invalidMessage c.

(** While a create or update is in flight the connection has been tested. *)
Definition testedWhileSubmitting (c : EditMediaServerComponent.t) : Prop :=
  EditMediaServerComponent.isSubmitting c = true ->
  EditMediaServerComponent.isConnectionTested c = true.

(** Some test call of the history [es] came back with a text that
    reports success. *)
Definition testedBySuccess (es : list EditMediaServerComponent.Event) : Prop :=
  exists r, In (EditMediaServerComponent.TestNext r) es
            /\ EditMediaServerComponent.reportsSuccess r = true.

(** Entry into the view: the router hands the route value [v] to the
    input [mediaServerId], then the effect on the id runs. *)
Definition enter (StringToNumber : string -> JS.number) (v : JS.value)
  : Action EditMediaServerComponent.t unit :=
  EditMediaServerComponent.run
    [EditMediaServerComponent.InputBound
       (EditMediaServerComponent.mediaServerId_transform StringToNumber v);
     EditMediaServerComponent.RunMediaServerIDeffect].

(** A create or update call among the effects. *)
Definition isSubmitCall (e : Effect) : bool :=
  match e with
  | Http (PostMediaServer _) => true
  | Http (PutMediaServer _ _) => true
  | _ => false
  end.

(** The failure of a create or update call among the events. *)
Definition isSubmitError (e : EditMediaServerComponent.Event) : bool :=
  match e with
  | EditMediaServerComponent.CreateError _ => true
  | EditMediaServerComponent.UpdateError _ => true
  | _ => false
  end.




(** The room for a create or update call: one when nothing is in flight. *)
Definition room (c : EditMediaServerComponent.t) : nat :=
  if EditMediaServerComponent.isSubmitting c then 0%nat else 1%nat.

(** Where an HTTP call of the view comes from and what it carries. *)
Definition callOrigin (e : EditMediaServerComponent.Event)
  (c : EditMediaServerComponent.t) (call : HttpCall) : Prop :=
  let form := EditMediaServerComponent.mediaServerCreate c in
  match call with
  | GetMediaServers =>
      e = EditMediaServerComponent.DeleteNext
      \/ e = EditMediaServerComponent.TimeoutFired
  | PostTest data =>
      e = EditMediaServerComponent.Submit /\ data = form
      /\ EditMediaServerComponent.schema data = true
      /\ EditMediaServerComponent.isConnectionTested c = false
  | PostMediaServer data =>
      e = EditMediaServerComponent.Submit /\ data = form
      /\ EditMediaServerComponent.schema data = true
      /\ EditMediaServerComponent.isSubmitting c = false
  | PutMediaServer id data =>
      e = EditMediaServerComponent.Submit
      /\ data = MediaServerUpdate.ofCreate form
      /\ EditMediaServerComponent.schema form = true
      /\ EditMediaServerComponent.isSubmitting c = false
  | DeleteMediaServer id =>
      e = EditMediaServerComponent.ConfirmDelete
      /\ id = EditMediaServerComponent.mediaServerId c
      /\ present (EditMediaServerComponent.mediaServerService c) id
  | PostRefresh _ _ => False
  end.

(** Sample data for the concrete runs. *)
Definition demoServer (id : Z) (name : string) : MediaServerRead.t :=
  {| MediaServerRead.id := id;
     MediaServerRead.name := name;
     MediaServerRead.server_type := Jellyfin;
     MediaServerRead.url := "http://192.168.1.5:8096";
     MediaServerRead.api_key := "1234567890";
     MediaServerRead.enabled := false;
     MediaServerRead.added_at := "2024-05-01T10:00:00.000Z" |}.

Definition demoService (target : Z) : MediaServerService.t :=
  {| constructedAt := "2025-01-01T00:00:00.000Z";
     mediaServersResource_value := [demoServer 1 "Home"; demoServer 2 "Attic"];
     mediaServersResource_isLoading := false;
     mediaServerID := target |}.

Definition demoModel : MediaServerCreate.t :=
  {| MediaServerCreate.name := "Home Emby";
     MediaServerCreate.server_type := Emby;
     MediaServerCreate.url := "http://192.168.1.5:8096";
     MediaServerCreate.api_key := "1234567890";
     MediaServerCreate.enabled := true |}.

(** The view opened to add a server, once the empty snapshot has arrived
    and the user has filled the form in. *)
Definition demoFilledIn : EditMediaServerComponent.t :=
  state (EditMediaServerComponent.run
           [EditMediaServerComponent.InputBound (-1);
            EditMediaServerComponent.ResourceLoaded [];
            EditMediaServerComponent.RunMediaServerIDeffect;
            EditMediaServerComponent.RunMediaServerEffect;
            EditMediaServerComponent.FieldInput demoModel]
           (EditMediaServerComponent.create
              (MediaServerService.create "2025-01-01T00:00:00.000Z"))).

(** The same form with a key of nine characters. *)
Definition demoShortKey : EditMediaServerComponent.t :=
  EditMediaServerComponent.set_mediaServerCreate
    {| MediaServerCreate.name := "Home Emby";
       MediaServerCreate.server_type := Emby;
       MediaServerCreate.url := "http://192.168.1.5:8096";
       MediaServerCreate.api_key := "123456789";
       MediaServerCreate.enabled := true |}
    demoFilledIn.

(** The user submits, the test succeeds, the user submits again: the
    create call is in flight. *)
Definition demoSubmitting : EditMediaServerComponent.t :=
  state (EditMediaServerComponent.run
           [EditMediaServerComponent.Submit;
            EditMediaServerComponent.TestNext "Connection successful";
            EditMediaServerComponent.Submit]
           demoFilledIn).

(** The view opened on the id 7, which the loaded snapshot does not hold. *)
Definition demoUnknownId : EditMediaServerComponent.t :=
  state (EditMediaServerComponent.run
           [EditMediaServerComponent.InputBound 7;
            EditMediaServerComponent.ResourceLoaded
              [demoServer 1 "Home"; demoServer 2 "Attic"]]
           (EditMediaServerComponent.create
              (MediaServerService.create "2025-01-01T00:00:00.000Z"))).

(** The view opened on the server 2, its form tested with success. *)
Definition demoEditTested : EditMediaServerComponent.t :=
  state (EditMediaServerComponent.run
           [EditMediaServerComponent.InputBound 2;
            EditMediaServerComponent.ResourceLoaded
              [demoServer 1 "Home"; demoServer 2 "Attic"];
            EditMediaServerComponent.RunMediaServerIDeffect;
            EditMediaServerComponent.RunMediaServerEffect;
            EditMediaServerComponent.Submit;
            EditMediaServerComponent.TestNext "Success!"]
           (EditMediaServerComponent.create
              (MediaServerService.create "2025-01-01T00:00:00.000Z"))).

(** A [StringToNumber] for the concrete runs: it knows ["-1"] only. *)
Definition demoStringToNumber (s : string) : JS.number :=
  if (s =? "-1")%string then JS.Num (-1) else JS.NaN.

(** The view opened on the server 2, before the effects have run. *)
Definition demoOpened : EditMediaServerComponent.t :=
  state (EditMediaServerComponent.run
           [EditMediaServerComponent.InputBound 2;
            EditMediaServerComponent.ResourceLoaded
              [demoServer 1 "Home"; demoServer 2 "Attic"]]
           (EditMediaServerComponent.create
              (MediaServerService.create "2025-01-01T00:00:00.000Z"))).

(** The form of the view to add a server, tested with success. *)
Definition demoCreateTested : EditMediaServerComponent.t :=
  state (EditMediaServerComponent.run
           [EditMediaServerComponent.Submit;
            EditMediaServerComponent.TestNext "Connection successful"]
           demoFilledIn).

(** Another valid form model. *)
Definition demoOtherModel : MediaServerCreate.t :=
  {| MediaServerCreate.name := "Cellar";
     MediaServerCreate.server_type := Plex;
     MediaServerCreate.url := "https://cellar.example:32400";
     MediaServerCreate.api_key := "abcdefghijkl";
     MediaServerCreate.enabled := true |}.

(* ===================================================================== *)
(** ** The service: selection and existence *)
(* ===================================================================== *)

Section Selection.

Variable svc : MediaServerService.t.

Let target := mediaServerID svc.
Let snapshot := mediaServersResource_value svc.
Let sameId (x : MediaServerRead.t) := MediaServerRead.id x =? target.

Lemma selected_found x :
  find sameId snapshot = Some x -> selectedMediaServer svc = x.
Proof.
  unfold selectedMediaServer. fold target snapshot sameId.
  intros ->. reflexivity.
Qed.

Lemma selected_not_found :
  find sameId snapshot = None -> selectedMediaServer svc = newMediaServer svc.
Proof.
  unfold selectedMediaServer. fold target snapshot sameId.
  intros ->. reflexivity.
Qed.

Lemma present_find :
  present svc target -> exists x, find sameId snapshot = Some x.
Proof.
  intros [x [Hin Hid]].
  destruct (find sameId snapshot) as [y|] eqn:E; [now exists y|].
  exfalso. apply (find_none _ _ E) in Hin.
  unfold sameId in Hin. apply Z.eqb_neq in Hin. contradiction.
Qed.

Lemma absent_find : absent svc target -> find sameId snapshot = None.
Proof.
  intros Habs.
  destruct (find sameId snapshot) as [y|] eqn:E; [|reflexivity].
  apply find_some in E. destruct E as [Hin Hid].
  apply Z.eqb_eq in Hid. now apply Habs in Hin.
Qed.

End Selection.

Lemma unique_by_id (l : list MediaServerRead.t) x y :
  NoDup (map MediaServerRead.id l) ->
  In x l -> In y l -> MediaServerRead.id x = MediaServerRead.id y -> x = y.
Proof.
  induction l as [|a l IH]; simpl; [tauto|].
  intros Hnd Hx Hy Hid. inversion Hnd as [|? ? Hnotin Hnd']; subst.
  destruct Hx as [->|Hx], Hy as [->|Hy]; auto.
  - exfalso. apply Hnotin. rewrite Hid. now apply in_map.
  - exfalso. apply Hnotin. rewrite <- Hid. now apply in_map.
Qed.

(** C1. For an id that matches an entity of the snapshot,
    [selectedMediaServer] is an entity of the snapshot with that id, and,
    ids being unique, it is the matching entity itself; for an id that
    matches none, it is the placeholder, whose id is -1. *)
Theorem selectedMediaServer_lookup (svc : MediaServerService.t) :
  (present svc (mediaServerID svc) ->
     holds svc (mediaServerID svc) (selectedMediaServer svc)
     /\ (uniqueIds svc ->
         forall x, holds svc (mediaServerID svc) x -> selectedMediaServer svc = x))
  /\ (absent svc (mediaServerID svc) ->
        selectedMediaServer svc = newMediaServer svc
        /\ MediaServerRead.id (selectedMediaServer svc) = -1).
Proof.
  split.
  - intros Hp. destruct (present_find svc Hp) as [y Hy].
    rewrite (selected_found svc y Hy).
    pose proof (find_some _ _ Hy) as [Hin Hid]. apply Z.eqb_eq in Hid.
    split; [now split|].
    intros Hu x [Hx Hxid].
    apply (unique_by_id (mediaServersResource_value svc)); auto; congruence.
  - intros Ha. rewrite (selected_not_found svc (absent_find svc Ha)).
    split; reflexivity.
Qed.

Lemma selectedMediaServer_lookup_witness :
  selectedMediaServer (demoService 2) = demoServer 2 "Attic"
  /\ MediaServerRead.id (selectedMediaServer (demoService 7)) = -1.
Proof.
  split.
  - destruct (selectedMediaServer_lookup (demoService 2)) as [Hfound _].
    assert (Hh : holds (demoService 2) 2 (demoServer 2 "Attic")).
    { split; [simpl; auto | reflexivity]. }
    destruct Hfound as [_ Huniq]; [now exists (demoServer 2 "Attic")|].
    apply Huniq; [|exact Hh].
    unfold uniqueIds. simpl.
    repeat constructor; simpl; intuition discriminate.
  - destruct (selectedMediaServer_lookup (demoService 7)) as [_ Hnone].
    apply Hnone. intros x Hx. simpl in Hx.
    destruct Hx as [<-|[<-|[]]]; simpl; discriminate.
Defined.

(** [mediaServerExists] reads the service and leaves it as it was. *)
Lemma mediaServerExists_state (svc : MediaServerService.t) (id : Z) :
  state (mediaServerExists id svc) = svc.
Proof.
  unfold mediaServerExists, bind, get, ret, emit, state. simpl.
  destruct (existsb _ _); [reflexivity|].
  destruct (negb (id =? -1)); reflexivity.
Qed.

Lemma existsb_present (svc : MediaServerService.t) (id : Z) :
  existsb (fun x => MediaServerRead.id x =? id) (mediaServersResource_value svc) = true
  <-> present svc id.
Proof.
  rewrite existsb_exists. unfold present, holds.
  split; intros [x [Hin Hid]]; exists x; split; auto;
    now apply Z.eqb_eq.
Qed.

Lemma existsb_absent (svc : MediaServerService.t) (id : Z) :
  existsb (fun x => MediaServerRead.id x =? id) (mediaServersResource_value svc) = false
  <-> absent svc id.
Proof.
  split.
  - intros E x Hin Hid.
    assert (Hp : present svc id) by (exists x; now split).
    apply existsb_present in Hp. congruence.
  - intros Ha. apply not_true_is_false. intros E.
    apply existsb_present in E. destruct E as [x [Hin Hid]].
    now apply (Ha x).
Qed.

(** C4. [mediaServerExists(-1)] notifies nobody, whatever the snapshot
    holds (it has no effect at all); for another id that is absent from
    the snapshot the answer is
    [false] and the effects are one error notification and nothing else;
    for an id that is present the answer is [true] and there is no effect. *)
Theorem mediaServerExists_notifies (svc : MediaServerService.t) (id : Z) :
  let r := mediaServerExists id svc in
  (id = -1 -> effects r = [] /\ filter isToast (effects r) = [])
  /\ (id <> -1 -> absent svc id ->
        result r = false /\ effects r = [missingToast id])
  /\ (present svc id -> result r = true /\ effects r = []).
Proof.
  unfold mediaServerExists, bind, get, ret, emit, result, effects, missingToast.
  simpl. repeat split.
  - subst id. destruct (existsb _ _); reflexivity.
  - subst id. destruct (existsb _ _); reflexivity.
  - apply existsb_absent in H0. rewrite H0. apply Z.eqb_neq in H.
    rewrite H. reflexivity.
  - apply existsb_absent in H0. rewrite H0. apply Z.eqb_neq in H.
    rewrite H. reflexivity.
  - apply existsb_present in H. rewrite H. reflexivity.
  - apply existsb_present in H. rewrite H. reflexivity.
Qed.

Lemma mediaServerExists_notifies_witness :
  (effects (mediaServerExists (-1) (demoService 1)) = []
   /\ filter isToast (effects (mediaServerExists (-1) (demoService 1))) = [])
  /\ (result (mediaServerExists 7 (demoService 1)) = false
      /\ effects (mediaServerExists 7 (demoService 1))
         = [ShowToast "Media Server with ID '7' does not exist." "error"])
  /\ (result (mediaServerExists 2 (demoService 1)) = true
      /\ effects (mediaServerExists 2 (demoService 1)) = []).
Proof.
  split; [|split].
  - destruct (mediaServerExists_notifies (demoService 1) (-1)) as (H & _ & _).
    apply H. reflexivity.
  - destruct (mediaServerExists_notifies (demoService 1) 7) as (_ & H & _).
    apply H; [lia|].
    intros x Hx. simpl in Hx. destruct Hx as [<-|[<-|[]]]; simpl; lia.
  - destruct (mediaServerExists_notifies (demoService 1) 2) as (_ & _ & H).
    apply H. exists (demoServer 2 "Attic"). split; [simpl; auto | reflexivity].
Defined.

(** C6, as the specification words it, fails on the placeholder of a
    freshly built service: its [server_type] is [Emby], whose value is
    ["emby"], and its [added_at] is the time of construction. *)
Lemma placeholder_not_all_empty :
  absent (create "2025-01-01T00:00:00.000Z")
         (mediaServerID (create "2025-01-01T00:00:00.000Z"))
  /\ ~ emptyPlaceholder (selectedMediaServer (create "2025-01-01T00:00:00.000Z")).
Proof.
  split.
  - intros x [].
  - intros (_ & _ & _ & Htype & _). discriminate Htype.
Qed.

(** C6, amended. The placeholder returned for an absent targeted id has
    id -1, [enabled = true], the empty string as [name], [url] and
    [api_key], the server type [Emby], and as [added_at] the time read
    when the service was built. *)
Theorem placeholder_fields (svc : MediaServerService.t) :
  absent svc (mediaServerID svc) ->
  let p := selectedMediaServer svc in
  MediaServerRead.id p = -1
  /\ MediaServerRead.enabled p = true
  /\ MediaServerRead.name p = ""
  /\ MediaServerRead.url p = ""
  /\ MediaServerRead.api_key p = ""
  /\ MediaServerRead.server_type p = Emby
  /\ MediaServerRead.added_at p = constructedAt svc.
Proof.
  intros Ha p. subst p.
  rewrite (selected_not_found svc (absent_find svc Ha)).
  repeat split.
Qed.

Lemma placeholder_fields_witness :
  let p := selectedMediaServer (demoService 7) in
  MediaServerRead.id p = -1
  /\ MediaServerRead.enabled p = true
  /\ MediaServerRead.name p = ""
  /\ MediaServerRead.url p = ""
  /\ MediaServerRead.api_key p = ""
  /\ MediaServerRead.server_type p = Emby
  /\ MediaServerRead.added_at p = "2025-01-01T00:00:00.000Z".
Proof.
  apply (placeholder_fields (demoService 7)).
  intros x Hx. simpl in Hx. destruct Hx as [<-|[<-|[]]]; simpl; lia.
Defined.

(** C10. Two targeted ids that are both absent from the snapshot get the
    same value from [selectedMediaServer]: the one placeholder of the
    service, time of construction included. *)
Theorem placeholder_independent_of_id (svc : MediaServerService.t) (id1 id2 : Z) :
  absent svc id1 -> absent svc id2 ->
  selectedMediaServer (set_mediaServerID id1 svc)
  = selectedMediaServer (set_mediaServerID id2 svc)
  /\ selectedMediaServer (set_mediaServerID id1 svc) = newMediaServer svc.
Proof.
  intros H1 H2.
  assert (E : forall id, absent svc id ->
                selectedMediaServer (set_mediaServerID id svc) = newMediaServer svc).
  { intros id Ha.
    rewrite (selected_not_found (set_mediaServerID id svc)); [reflexivity|].
    apply absent_find. exact Ha. }
  rewrite (E id1 H1), (E id2 H2). split; reflexivity.
Qed.

Lemma placeholder_independent_of_id_witness :
  selectedMediaServer (set_mediaServerID 7 (demoService 1))
  = selectedMediaServer (set_mediaServerID (-1) (demoService 1))
  /\ selectedMediaServer (set_mediaServerID 7 (demoService 1))
     = newMediaServer (demoService 1).
Proof.
  apply (placeholder_independent_of_id (demoService 1) 7 (-1));
    intros x Hx; simpl in Hx; destruct Hx as [<-|[<-|[]]]; simpl; lia.
Defined.

(* ===================================================================== *)
(** ** The edit view *)
(* ===================================================================== *)

Import EditMediaServerComponent.

(** *** The monad *)

Lemma state_bind {S A B} (m : Action S A) (k : A -> Action S B) (s : S) :
  state (bind m k s) = state (k (result (m s)) (state (m s))).
Proof.
  unfold bind, state, result.
  destruct (m s) as [[a s1] o1]. simpl.
  destruct (k a s1) as [[b s2] o2]. reflexivity.
Qed.

Lemma effects_bind {S A B} (m : Action S A) (k : A -> Action S B) (s : S) :
  effects (bind m k s)
  = (effects (m s) ++ effects (k (result (m s)) (state (m s))))%list.
Proof.
  unfold bind, state, result, effects.
  destruct (m s) as [[a s1] o1]. simpl.
  destruct (k a s1) as [[b s2] o2]. reflexivity.
Qed.

Ltac handlers :=
  unfold step, onSubmit, onCancel, onConfirmCancel, onConfirmDelete,
    testConnection, testConnection_next, testConnection_error,
    createMediaServer, createMediaServer_next, createMediaServer_error,
    updateMediaServer, updateMediaServer_next, updateMediaServer_error,
    EditMediaServerComponent.deleteMediaServer,
    deleteMediaServer_next, deleteMediaServer_error,
    navigateThenReload, mediaServerIDeffect, mediaServerEffect,
    checkFormValidity, onService,
    MediaServerService.mediaServerExists, MediaServerService.reload,
    MediaServerService.addMediaServer, MediaServerService.testMediaServer,
    MediaServerService.updateMediaServer,
    MediaServerService.deleteMediaServer,
    valid, isLoading,
    bind, get, ret, modify, emit, state, effects, result;
  simpl.

Ltac branches :=
  repeat match goal with
    | |- context [if ?b then _ else _] => destruct b eqn:?; simpl in *
    end.

(** *** The form rules *)

Lemma schema_true (m : MediaServerCreate.t) :
  schema m = true ->
  (10 <= JS.length (MediaServerCreate.api_key m) <= 200)%nat
  /\ (3 <= JS.length (MediaServerCreate.name m))%nat
  /\ urlPattern (MediaServerCreate.url m) = true.
Proof.
  unfold schema, SignalForms.required, SignalForms.minLength,
    SignalForms.maxLength, SignalForms.pattern.
  destruct (SignalForms.isEmpty (MediaServerCreate.api_key m));
    destruct (SignalForms.isEmpty (MediaServerCreate.name m));
    destruct (SignalForms.isEmpty (MediaServerCreate.url m));
    cbn [negb orb andb]; rewrite ?andb_false_r; try discriminate.
  rewrite !andb_true_iff, !Nat.leb_le. tauto.
Qed.

Lemma rejected_invalid (m : MediaServerCreate.t) :
  rejected m -> schema m = false.
Proof.
  intros Hr. destruct (schema m) eqn:E; [|reflexivity].
  apply schema_true in E. destruct E as ([Hk _] & Hn & Hu).
  destruct Hr as [H|[H|H]]; [lia|congruence|lia].
Qed.

Lemma invalid_blocks (c : t) :
  valid c = false ->
  blockedAt c onSubmit /\ blockedAt c testConnection
  /\ blockedAt c createMediaServer /\ blockedAt c updateMediaServer.
Proof.
  intros Hv. unfold valid in Hv. unfold blockedAt, invalidMessage. handlers.
  rewrite Hv. simpl. repeat split.
Qed.

(** C5. When the [api_key] has fewer than 10 characters, or the [url]
    starts with neither [http://] nor [https://], or the [name] has fewer
    than 3 characters, a submit attempt shows the inline error and has no
    effect on the outside world, so no test, create or update call; the
    same holds of the three handlers behind it. *)
Theorem invalid_form_blocks_submit (c : t) :
  rejected (mediaServerCreate c) ->
  requests (effects (onSubmit c)) = []
  /\ submitResult (state (onSubmit c)) = invalidMessage
  /\ blockedAt c onSubmit /\ blockedAt c testConnection
  /\ blockedAt c createMediaServer /\ blockedAt c updateMediaServer.
Proof.
  intros Hr. apply rejected_invalid in Hr.
  destruct (invalid_blocks c Hr) as (Hs & Ht & Hc & Hu).
  repeat split; try apply Hs; try apply Ht; try apply Hc; try apply Hu.
  - destruct Hs as [-> _]. reflexivity.
  - destruct Hs as [_ ->]. reflexivity.
Qed.

Lemma invalid_form_blocks_submit_witness :
  requests (effects (onSubmit demoShortKey)) = []
  /\ submitResult (state (onSubmit demoShortKey)) = invalidMessage
  /\ blockedAt demoShortKey onSubmit /\ blockedAt demoShortKey testConnection
  /\ blockedAt demoShortKey createMediaServer
  /\ blockedAt demoShortKey updateMediaServer.
Proof.
  apply (invalid_form_blocks_submit demoShortKey).
  left. simpl. lia.
Defined.

(** *** The guard against a second submission *)

Lemma run_app (es1 es2 : list Event) (c : t) :
  state (run (es1 ++ es2) c) = state (run es2 (state (run es1 c))).
Proof.
  revert c. induction es1 as [|e es1 IH]; intros c; [reflexivity|].
  simpl. rewrite !state_bind. apply IH.
Qed.

Lemma step_keeps_tested (e : Event) (c : t) :
  testedWhileSubmitting c -> testedWhileSubmitting (state (step e c)).
Proof.
  unfold testedWhileSubmitting. intros Hc.
  destruct e; handlers; branches; auto; intros;
    rewrite ?negb_false_iff, ?negb_true_iff in *; congruence.
Qed.

Lemma run_keeps_tested (es : list Event) (c : t) :
  testedWhileSubmitting c -> testedWhileSubmitting (state (run es c)).
Proof.
  revert c. induction es as [|e es IH]; intros c Hc; [exact Hc|].
  simpl. rewrite state_bind. apply IH. now apply step_keeps_tested.
Qed.

Lemma reachable_tested (c : t) : reachable c -> testedWhileSubmitting c.
Proof.
  intros (svc & es & ->). apply run_keeps_tested.
  unfold testedWhileSubmitting. discriminate.
Qed.

Lemma guard_create (c : t) :
  isSubmitting c = true ->
  effects (createMediaServer c) = []
  /\ isSubmitting (state (createMediaServer c)) = true.
Proof.
  intros Hs. handlers.
  destruct (schema (mediaServerCreate c)); simpl; rewrite ?Hs; auto.
Qed.

Lemma guard_update (c : t) :
  isSubmitting c = true ->
  effects (updateMediaServer c) = []
  /\ isSubmitting (state (updateMediaServer c)) = true.
Proof.
  intros Hs. handlers.
  destruct (schema (mediaServerCreate c)); simpl; rewrite ?Hs; auto.
Qed.

Lemma guard_submit (c : t) :
  isSubmitting c = true -> isConnectionTested c = true ->
  effects (onSubmit c) = [] /\ isSubmitting (state (onSubmit c)) = true.
Proof.
  intros Hs Ht. handlers.
  destruct (schema (mediaServerCreate c)) eqn:Ev; simpl; rewrite ?Ht; simpl;
    destruct (isCreate c); simpl; rewrite ?Ev; simpl; rewrite ?Hs; auto.
Qed.

(** C3. While [isSubmitting] is true, [createMediaServer] and
    [updateMediaServer] return before they call the service, and in every
    state the view can reach a submit attempt has no effect on the outside
    world at all; [isSubmitting] stays true. *)
Theorem submitting_blocks_resubmission (c : t) :
  isSubmitting c = true ->
  effects (createMediaServer c) = []
  /\ effects (updateMediaServer c) = []
  /\ isSubmitting (state (createMediaServer c)) = true
  /\ isSubmitting (state (updateMediaServer c)) = true
  /\ (reachable c ->
      effects (onSubmit c) = [] /\ isSubmitting (state (onSubmit c)) = true).
Proof.
  intros Hs.
  destruct (guard_create c Hs) as [H1 H2].
  destruct (guard_update c Hs) as [H3 H4].
  repeat split; auto; apply guard_submit; auto;
    now apply reachable_tested.
Qed.

Lemma submitting_blocks_resubmission_witness :
  isSubmitting demoSubmitting = true
  /\ effects (createMediaServer demoSubmitting) = []
  /\ effects (updateMediaServer demoSubmitting) = []
  /\ effects (onSubmit demoSubmitting) = [].
Proof.
  destruct (submitting_blocks_resubmission demoSubmitting eq_refl)
    as (H1 & H2 & _ & _ & H3).
  split; [reflexivity|]. split; [exact H1|]. split; [exact H2|].
  apply H3.
  exists (MediaServerService.create "2025-01-01T00:00:00.000Z").
  exists [InputBound (-1); ResourceLoaded []; RunMediaServerIDeffect;
          RunMediaServerEffect; FieldInput demoModel;
          Submit; TestNext "Connection successful"; Submit].
  vm_compute. reflexivity.
Defined.

(** *** Entry into the view *)

Lemma set_same_service (c : t) :
  set_mediaServerService (mediaServerService c) c = c.
Proof. destruct c; reflexivity. Qed.

(** C8. Entered with a target id other than -1 that the loaded snapshot
    does not hold, the effect on the id notifies the user, redirects to
    the list route and stops: the view and the service are as before, so
    the targeted id of the service is unchanged and the form model and the
    selected server are what they were. *)
Theorem unknown_id_redirects (c : t) :
  isLoading c = false ->
  mediaServerId c <> -1 ->
  absent (mediaServerService c) (mediaServerId c) ->
  let r := mediaServerIDeffect c in
  effects r = [missingToast (mediaServerId c); Navigate listRoute]
  /\ state r = c
  /\ mediaServerID (mediaServerService (state r))
     = mediaServerID (mediaServerService c)
  /\ mediaServerCreate (state r) = mediaServerCreate c
  /\ mediaServer (state r) = mediaServer c.
Proof.
  intros Hl Hid Ha r.
  assert (E : effects r = [missingToast (mediaServerId c); Navigate listRoute]
              /\ state r = c).
  { subst r. unfold missingToast. unfold isLoading in Hl.
    apply existsb_absent in Ha. apply Z.eqb_neq in Hid.
    handlers. rewrite Hl, Hid. simpl. rewrite Ha, ?Hid. simpl.
    split; [reflexivity | apply set_same_service]. }
  destruct E as [E1 E2]. rewrite E2. repeat split; auto.
Qed.

Lemma unknown_id_redirects_witness :
  effects (mediaServerIDeffect demoUnknownId)
  = [ShowToast "Media Server with ID '7' does not exist." "error";
     Navigate "/settings/mediaservers"]
  /\ state (mediaServerIDeffect demoUnknownId) = demoUnknownId.
Proof.
  assert (Ha : absent (mediaServerService demoUnknownId)
                 (mediaServerId demoUnknownId)).
  { intros x Hx. simpl in Hx. destruct Hx as [<-|[<-|[]]]; simpl; lia. }
  assert (Hid : mediaServerId demoUnknownId <> -1) by (simpl; lia).
  destruct (unknown_id_redirects demoUnknownId eq_refl Hid Ha)
    as (H1 & H2 & _).
  split; [exact H1 | exact H2].
Defined.

Lemma selected_sentinel (svc : MediaServerService.t) :
  mediaServerID svc = -1 ->
  MediaServerRead.id (selectedMediaServer svc) = -1.
Proof.
  intros Ht. unfold selectedMediaServer.
  destruct (find _ _) as [x|] eqn:E; [|reflexivity].
  apply find_some in E. destruct E as [_ E].
  apply Z.eqb_eq in E. congruence.
Qed.

Lemma enter_sentinel (c : t) :
  isLoading c = false ->
  let r := run [InputBound (-1); RunMediaServerIDeffect] c in
  effects r = []
  /\ isCreate (state r) = true
  /\ mediaServerID (mediaServerService (state r)) = -1
  /\ isCreate (state (mediaServerEffect (state r))) = true.
Proof.
  intros Hl r. subst r. unfold isLoading in Hl. unfold run.
  handlers. rewrite Hl. simpl. repeat split.
  destruct (isSubmitting c); simpl; [reflexivity|].
  apply Z.eqb_eq. apply selected_sentinel. reflexivity.
Qed.

(** C7. When the route has no parameter for the target id, entry puts the
    view in create mode: the input becomes -1, [isCreate] becomes true and
    stays true when the form is filled from the selected server, the
    service targets -1 and nothing is redirected; entry does exactly
    what it does for a route value that stands for -1. *)
Theorem absent_parameter_is_create
  (StringToNumber : string -> JS.number) (c : t) (v : JS.value) :
  isLoading c = false ->
  mediaServerId_transform StringToNumber v = -1 ->
  let r := enter StringToNumber (routeParameter None) c in
  mediaServerId_transform StringToNumber (routeParameter None) = -1
  /\ effects r = []
  /\ isCreate (state r) = true
  /\ mediaServerID (mediaServerService (state r)) = -1
  /\ isCreate (state (mediaServerEffect (state r))) = true
  /\ r = enter StringToNumber v c.
Proof.
  intros Hl Hv r. subst r. unfold enter. rewrite Hv.
  change (mediaServerId_transform StringToNumber (routeParameter None))
    with (-1).
  destruct (enter_sentinel c Hl) as (H1 & H2 & H3 & H4).
  repeat split; assumption.
Qed.

Lemma absent_parameter_is_create_witness :
  isCreate (state (enter demoStringToNumber (routeParameter None) demoUnknownId))
  = true
  /\ enter demoStringToNumber (routeParameter None) demoUnknownId
     = enter demoStringToNumber (routeParameter (Some "-1")) demoUnknownId.
Proof.
  destruct (absent_parameter_is_create demoStringToNumber demoUnknownId
              (routeParameter (Some "-1")) eq_refl eq_refl)
    as (_ & _ & H1 & _ & _ & H2).
  split; [exact H1 | exact H2].
Defined.

(** *** What the calls carry *)

Lemma ofCreate_complete (m : MediaServerCreate.t) :
  MediaServerUpdate.complete (MediaServerUpdate.ofCreate m).
Proof. repeat split; discriminate. Qed.

(** Where an update call comes from: a submit of a valid, tested form in
    edit mode, with the whole form model as payload. *)
Lemma update_call_origin (e : Event) (c : t) (id : Z) (u : MediaServerUpdate.t) :
  In (Http (PutMediaServer id u)) (effects (step e c)) ->
  e = Submit
  /\ isConnectionTested c = true
  /\ isCreate c = false
  /\ id = mediaServerId c
  /\ u = MediaServerUpdate.ofCreate (mediaServerCreate c).
Proof.
  destruct e; handlers; branches; simpl;
    intros H; repeat (destruct H as [H|H]; try discriminate H);
    try contradiction;
    rewrite ?negb_false_iff, ?negb_true_iff in *;
    inversion H; subst; repeat split; congruence.
Qed.

(** Where a create call comes from: a submit of a valid, tested form in
    create mode, with the form model as payload. *)
Lemma create_call_origin (e : Event) (c : t) (p : MediaServerCreate.t) :
  In (Http (PostMediaServer p)) (effects (step e c)) ->
  e = Submit
  /\ isConnectionTested c = true
  /\ isCreate c = true
  /\ p = mediaServerCreate c.
Proof.
  destruct e; handlers; branches; simpl;
    intros H; repeat (destruct H as [H|H]; try discriminate H);
    try contradiction;
    rewrite ?negb_false_iff, ?negb_true_iff in *;
    inversion H; subst; repeat split; congruence.
Qed.

(** C9. Whatever happens to the view, an update call it makes carries
    the whole form model: all five fields are present in the payload, and
    the call addresses the id the view was opened on. *)
Theorem update_payload_complete
  (e : Event) (c : t) (id : Z) (u : MediaServerUpdate.t) :
  In (Http (PutMediaServer id u)) (effects (step e c)) ->
  MediaServerUpdate.complete u
  /\ u = MediaServerUpdate.ofCreate (mediaServerCreate c)
  /\ id = mediaServerId c.
Proof.
  intros H. apply update_call_origin in H.
  destruct H as (_ & _ & _ & -> & ->).
  split; [apply ofCreate_complete | split; reflexivity].
Qed.

Lemma update_payload_complete_witness :
  effects (step Submit demoEditTested)
  = [Http (PutMediaServer 2
             (MediaServerUpdate.ofCreate
                (MediaServerRead.asCreate (demoServer 2 "Attic"))))]
  /\ MediaServerUpdate.complete
       (MediaServerUpdate.ofCreate
          (MediaServerRead.asCreate (demoServer 2 "Attic"))).
Proof.
  split; [vm_compute; reflexivity|].
  apply (update_payload_complete Submit demoEditTested 2).
  vm_compute. left. reflexivity.
Defined.

(** *** Test before create *)

(** Only a test that reports success marks the connection as tested. *)
Lemma step_marks_tested (e : Event) (c : t) :
  isConnectionTested c = false ->
  isConnectionTested (state (step e c)) = true ->
  exists r, e = TestNext r /\ reportsSuccess r = true.
Proof.
  intros Hc.
  destruct e; handlers; branches; simpl; intros H;
    try congruence.
  eexists; split; [reflexivity | assumption].
Qed.

Lemma run_marks_tested (es : list Event) (c : t) :
  isConnectionTested c = false ->
  isConnectionTested (state (run es c)) = true ->
  testedBySuccess es.
Proof.
  revert c. induction es as [|e es IH]; intros c Hc H.
  - simpl in H. unfold ret, state in H. simpl in H. congruence.
  - simpl in H. rewrite state_bind in H.
    destruct (isConnectionTested (state (step e c))) eqn:E.
    + destruct (step_marks_tested e c Hc E) as (r & -> & Hr).
      exists r. split; [left; reflexivity | exact Hr].
    + destruct (IH _ E H) as (r & Hin & Hr).
      exists r. split; [right; exact Hin | exact Hr].
Qed.

Lemma first_submit_tests (c : t) :
  valid c = true -> isConnectionTested c = false ->
  effects (onSubmit c) = [Http (PostTest (mediaServerCreate c))]
  /\ state (onSubmit c) = set_submitResult "Testing connection..." c.
Proof.
  unfold valid. intros Hv Ht. handlers.
  rewrite Hv. simpl. rewrite Ht. simpl. rewrite Hv. simpl.
  split; [reflexivity|]. destruct c; reflexivity.
Qed.

Lemma tested_submit_creates (c : t) :
  valid c = true -> isConnectionTested c = true ->
  isCreate c = true -> isSubmitting c = false ->
  effects (onSubmit c) = [Http (PostMediaServer (mediaServerCreate c))]
  /\ isSubmitting (state (onSubmit c)) = true.
Proof.
  unfold valid. intros Hv Ht Hc Hs. handlers.
  rewrite Hv. simpl. rewrite Ht. simpl. rewrite Hc. rewrite Hv. simpl.
  rewrite Hs. split; reflexivity.
Qed.

(** The form model changes only when the user edits a field or when the
    form is filled again from the selected server. *)
Lemma form_model_frame (e : Event) (c : t) :
  (forall m, e <> FieldInput m) -> e <> RunMediaServerEffect ->
  mediaServerCreate (state (step e c)) = mediaServerCreate c.
Proof.
  intros Hf Hh.
  destruct e; try congruence; try (now exfalso; eapply Hf);
    handlers; branches; reflexivity.
Qed.

(** C2. A submit of a valid form whose connection has not been tested
    makes the test call and no other.  When that call comes back, the next
    submit makes the create call, with the payload that was tested, if the
    text that came back contains "success" in some letter case; otherwise
    it makes the test call again.  From the opening of the view on,
    whatever happens, a create call is made only by a submit after a test
    call came back with such a text, and it carries the form model, which
    nothing changes but the user's input and the filling of the form from
    the selected server. *)
Theorem test_before_create :
  (forall (c : t) (result : string),
      valid c = true -> isConnectionTested c = false ->
      isCreate c = true -> isSubmitting c = false ->
      let p := mediaServerCreate c in
      let c1 := state (onSubmit c) in
      let c2 := state (testConnection_next result c1) in
      effects (onSubmit c) = [Http (PostTest p)]
      /\ effects (testConnection_next result c1) = []
      /\ (reportsSuccess result = true ->
          effects (onSubmit c2) = [Http (PostMediaServer p)])
      /\ (reportsSuccess result = false ->
          effects (onSubmit c2) = [Http (PostTest p)]))
  /\ (forall (svc : MediaServerService.t) (es : list Event) (e : Event)
             (q : MediaServerCreate.t),
         let c := state (run es (create svc)) in
         In (Http (PostMediaServer q)) (effects (step e c)) ->
         e = Submit /\ testedBySuccess es /\ q = mediaServerCreate c)
  /\ (forall (c : t) (e : Event),
         (forall m, e <> FieldInput m) -> e <> RunMediaServerEffect ->
         mediaServerCreate (state (step e c)) = mediaServerCreate c).
Proof.
  split; [|split].
  - intros c result Hv Ht Hc Hs p c1 c2.
    destruct (first_submit_tests c Hv Ht) as [E1 E2].
    subst c2 c1 p. rewrite E2. split; [exact E1|].
    split; [unfold testConnection_next; handlers;
            destruct (reportsSuccess result); reflexivity|].
    split; intros Hr.
    + assert (E : mediaServerCreate
                    (state (testConnection_next result
                              (set_submitResult "Testing connection..." c)))
                  = mediaServerCreate c).
      { handlers. rewrite Hr. reflexivity. }
      rewrite <- E. apply tested_submit_creates.
      * unfold valid. rewrite E. exact Hv.
      * handlers. rewrite Hr. reflexivity.
      * handlers. rewrite Hr. exact Hc.
      * handlers. rewrite Hr. exact Hs.
    + assert (E : mediaServerCreate
                    (state (testConnection_next result
                              (set_submitResult "Testing connection..." c)))
                  = mediaServerCreate c).
      { handlers. rewrite Hr. reflexivity. }
      rewrite <- E. apply first_submit_tests.
      * unfold valid. rewrite E. exact Hv.
      * handlers. rewrite Hr. exact Ht.
  - intros svc es e q c H.
    apply create_call_origin in H. destruct H as (He & Ht & _ & Hq).
    split; [exact He|]. split; [|exact Hq].
    apply (run_marks_tested es (create svc)); [reflexivity | exact Ht].
  - intros c e. apply form_model_frame.
Qed.

Lemma test_before_create_witness :
  effects (onSubmit demoFilledIn) = [Http (PostTest demoModel)]
  /\ effects (onSubmit (state (testConnection_next "Connection successful"
                                 (state (onSubmit demoFilledIn)))))
     = [Http (PostMediaServer demoModel)]
  /\ effects (onSubmit (state (testConnection_next "Connection refused"
                                 (state (onSubmit demoFilledIn)))))
     = [Http (PostTest demoModel)]
  /\ testedBySuccess [InputBound (-1); ResourceLoaded [];
                      RunMediaServerIDeffect; RunMediaServerEffect;
                      FieldInput demoModel; Submit;
                      TestNext "Connection successful"].
Proof.
  destruct test_before_create as (Hrun & Hhistory & _).
  destruct (Hrun demoFilledIn "Connection successful"
              eq_refl eq_refl eq_refl eq_refl) as (H1 & _ & H2 & _).
  destruct (Hrun demoFilledIn "Connection refused"
              eq_refl eq_refl eq_refl eq_refl) as (_ & _ & _ & H3).
  split; [exact H1|]. split; [apply H2; reflexivity|].
  split; [apply H3; reflexivity|].
  apply (Hhistory (MediaServerService.create "2025-01-01T00:00:00.000Z")
           [InputBound (-1); ResourceLoaded [];
            RunMediaServerIDeffect; RunMediaServerEffect;
            FieldInput demoModel; Submit;
            TestNext "Connection successful"]
           Submit demoModel).
  vm_compute. left. reflexivity.
Defined.

(* ===================================================================== *)
(** ** Further properties of the form rules and of the success text *)
(* ===================================================================== *)

Lemma prefix_split (p s : string) :
  String.prefix p s = true <-> exists b, s = (p ++ b)%string.
Proof.
  revert s. induction p as [|a p IH]; intros s; simpl.
  - split; [intros _; now exists s | intros _; destruct s; reflexivity].
  - destruct s as [|a' s].
    + split; [discriminate | intros [b Hb]; discriminate].
    + simpl. destruct (Ascii.ascii_dec a a') as [->|Hne].
      * rewrite IH. split; intros [b Hb]; exists b; congruence.
      * split; [discriminate | intros [b Hb]; congruence].
Qed.

Lemma length_app (a b : string) :
  String.length (a ++ b) = (String.length a + String.length b)%nat.
Proof. induction a as [|c a IH]; simpl; [reflexivity | now rewrite IH]. Qed.

Lemma prefix_length (p s : string) :
  String.prefix p s = true -> (String.length p <= String.length s)%nat.
Proof.
  intros H. apply prefix_split in H. destruct H as [b ->].
  rewrite length_app. lia.
Qed.

Lemma includes_split (s sub : string) :
  JS.includes s sub = true <-> exists a b, s = (a ++ sub ++ b)%string.
Proof.
  induction s as [|c s IH].
  - change (JS.includes "" sub) with (String.prefix sub "" || false).
    rewrite orb_false_r, prefix_split. split.
    + intros [b Hb]. now exists EmptyString, b.
    + intros (a & b & H). destruct a as [|? a]; [now exists b|discriminate].
  - change (JS.includes (String c s) sub)
      with (String.prefix sub (String c s) || JS.includes s sub).
    rewrite orb_true_iff, prefix_split, IH. split.
    + intros [[b Hb]|(a & b & Hb)].
      * now exists EmptyString, b.
      * exists (String c a), b. simpl. now rewrite Hb.
    + intros (a & b & H). destruct a as [|c' a].
      * left. now exists b.
      * right. exists a, b. simpl in H. congruence.
Qed.

Lemma toLowerCase_app (a b : string) :
  JS.toLowerCase (a ++ b) = (JS.toLowerCase a ++ JS.toLowerCase b)%string.
Proof. induction a as [|c a IH]; simpl; [reflexivity | now rewrite IH]. Qed.

Lemma toLowerCase_split (r x y : string) :
  JS.toLowerCase r = (x ++ y)%string ->
  exists r1 r2, r = (r1 ++ r2)%string
                /\ JS.toLowerCase r1 = x /\ JS.toLowerCase r2 = y.
Proof.
  revert r. induction x as [|c x IH]; intros r H.
  - exists EmptyString, r. auto.
  - destruct r as [|c' r]; [discriminate|]. simpl in H.
    injection H as Hc Hr. destruct (IH r Hr) as (r1 & r2 & -> & H1 & H2).
    exists (String c' r1), r2. simpl. rewrite H1, Hc. auto.
Qed.

Lemma isEmpty_length (s : string) :
  SignalForms.isEmpty s = false <-> (1 <= JS.length s)%nat.
Proof.
  destruct s; simpl; split; intros H; try reflexivity; try discriminate; lia.
Qed.

Lemma urlPattern_length (s : string) :
  urlPattern s = true -> (7 <= JS.length s)%nat.
Proof.
  unfold urlPattern, JS.startsWith. rewrite orb_true_iff.
  intros [H|H]; apply prefix_length in H; simpl in H; unfold JS.length; lia.
Qed.

(** X1. The form is valid exactly when the key has 10 to 200 characters,
    the name has at least 3 and the url starts with [http://] or
    [https://]: the [required] rules and the minimum length of the url
    add nothing to these three. *)
Theorem schema_characterised (m : MediaServerCreate.t) :
  schema m = true
  <-> (10 <= JS.length (MediaServerCreate.api_key m) <= 200)%nat
      /\ (3 <= JS.length (MediaServerCreate.name m))%nat
      /\ urlPattern (MediaServerCreate.url m) = true.
Proof.
  split; [apply schema_true|].
  intros ([Hk1 Hk2] & Hn & Hu).
  pose proof (urlPattern_length _ Hu) as Hl.
  unfold schema, SignalForms.required, SignalForms.minLength,
    SignalForms.maxLength, SignalForms.pattern.
  assert (E1 : SignalForms.isEmpty (MediaServerCreate.api_key m) = false)
    by (apply isEmpty_length; lia).
  assert (E2 : SignalForms.isEmpty (MediaServerCreate.name m) = false)
    by (apply isEmpty_length; lia).
  assert (E3 : SignalForms.isEmpty (MediaServerCreate.url m) = false)
    by (apply isEmpty_length; lia).
  rewrite E1, E2, E3, Hu. cbn [negb orb andb].
  rewrite !andb_true_iff, !Nat.leb_le. repeat split; lia.
Qed.

(** X2. A text reports success exactly when it holds, somewhere, the
    word "success" in some mix of upper and lower case. *)
Theorem reportsSuccess_characterised (r : string) :
  reportsSuccess r = true
  <-> exists a w b, r = (a ++ w ++ b)%string /\ JS.toLowerCase w = "success".
Proof.
  unfold reportsSuccess. rewrite includes_split. split.
  - intros (x & y & H).
    apply toLowerCase_split in H. destruct H as (a & r2 & -> & _ & H).
    apply toLowerCase_split in H. destruct H as (w & b & -> & Hw & _).
    now exists a, w, b.
  - intros (a & w & b & -> & Hw).
    exists (JS.toLowerCase a), (JS.toLowerCase b).
    now rewrite !toLowerCase_app, Hw.
Qed.

(* ===================================================================== *)
(** ** Further properties of the service *)
(* ===================================================================== *)

(** X17. The existence check and the selection agree: [mediaServerExists]
    answers [true] for an id exactly when selecting that id gives a server
    the snapshot holds under that id, and [false] exactly when selecting
    it gives the placeholder while the snapshot holds nothing under it. *)
Theorem exists_agrees_with_selection (svc : MediaServerService.t) (id : Z) :
  let selected := selectedMediaServer (set_mediaServerID id svc) in
  (result (mediaServerExists id svc) = true <-> holds svc id selected)
  /\ (result (mediaServerExists id svc) = false
      <-> selected = newMediaServer svc /\ absent svc id).
Proof.
  intros selected. subst selected.
  assert (R : result (mediaServerExists id svc)
              = existsb (fun x => MediaServerRead.id x =? id)
                        (mediaServersResource_value svc)).
  { unfold mediaServerExists, bind, get, ret, emit, result. simpl.
    destruct (existsb _ _); [reflexivity|].
    destruct (negb (id =? -1)); reflexivity. }
  rewrite R. split.
  - rewrite existsb_present. split.
    + intros Hp.
      destruct (present_find (set_mediaServerID id svc) Hp) as [y Hy].
      rewrite (selected_found _ y Hy).
      pose proof (find_some _ _ Hy) as [Hin Hid]. apply Z.eqb_eq in Hid.
      split; assumption.
    + intros H. eexists. exact H.
  - rewrite existsb_absent. split.
    + intros Ha. split; [|exact Ha].
      apply (selected_not_found (set_mediaServerID id svc)).
      apply absent_find. exact Ha.
    + intros [_ Ha]. exact Ha.
Qed.

(* ===================================================================== *)
(** ** Further properties of the edit view *)
(* ===================================================================== *)

(** *** Delete *)

(** X3. A confirmed delete closes the dialog and asks the backend only
    for a server the snapshot holds: for an absent id no call is made (a
    notification is all there is, and only for an id other than -1), for a
    present id the one call is the delete of that id.  The view itself is
    left as it was. *)
Theorem delete_guarded (c : t) :
  let id := mediaServerId c in
  let r := onConfirmDelete c in
  state r = c
  /\ (absent (mediaServerService c) id ->
      requests (effects r) = []
      /\ effects r = CloseModal DeleteDialog
                     :: (if id =? -1 then [] else [missingToast id]))
  /\ (present (mediaServerService c) id ->
      effects r = [CloseModal DeleteDialog; Http (DeleteMediaServer id)]).
Proof.
  intros id r. subst id r. unfold missingToast. split; [|split].
  - handlers. branches; destruct c; reflexivity.
  - intros Ha. apply existsb_absent in Ha. handlers. rewrite Ha.
    destruct (mediaServerId c =? -1); simpl; split; reflexivity.
  - intros Hp. apply existsb_present in Hp. handlers. rewrite Hp.
    reflexivity.
Qed.

Lemma delete_guarded_witness :
  effects (onConfirmDelete demoUnknownId)
  = [CloseModal DeleteDialog;
     ShowToast "Media Server with ID '7' does not exist." "error"]
  /\ effects (onConfirmDelete demoOpened)
     = [CloseModal DeleteDialog; Http (DeleteMediaServer 2)].
Proof.
  split.
  - destruct (delete_guarded demoUnknownId) as (_ & H & _).
    apply H. intros x Hx. simpl in Hx.
    destruct Hx as [<-|[<-|[]]]; simpl; lia.
  - destruct (delete_guarded demoOpened) as (_ & _ & H).
    apply H. exists (demoServer 2 "Attic").
    split; [simpl; auto | reflexivity].
Defined.

(** *** Filling the form from the selected server *)

Lemma selected_id (svc : MediaServerService.t) :
  MediaServerRead.id (selectedMediaServer svc) = -1
  <-> mediaServerID svc = -1 \/ absent svc (mediaServerID svc).
Proof.
  unfold selectedMediaServer.
  destruct (find _ _) as [x|] eqn:E.
  - pose proof (find_some _ _ E) as [Hin Hid]. apply Z.eqb_eq in Hid.
    split; [intros H; left; congruence|].
    intros [H|H]; [congruence|]. now apply H in Hin.
  - split; [|reflexivity]. intros _. right.
    intros x Hin Hid. apply (find_none _ _ E) in Hin.
    apply Z.eqb_neq in Hin. contradiction.
Qed.

(** X4. When no submission is in flight, the effect on the selected
    server copies its fields into the form, clears the test and ready
    flags and the message, and asks for a re-render; it leaves the
    service, the input and the dirty and submitting flags alone.  The
    view is then in create mode exactly when the targeted id is -1 or
    absent from the snapshot. *)
Theorem hydration_fills_form (c : t) :
  isSubmitting c = false ->
  let c' := state (mediaServerEffect c) in
  effects (mediaServerEffect c) = [MarkForCheck]
  /\ mediaServerCreate c' = MediaServerRead.asCreate (mediaServer c)
  /\ (isCreate c' = true
      <-> mediaServerID (mediaServerService c) = -1
          \/ absent (mediaServerService c)
                    (mediaServerID (mediaServerService c)))
  /\ isConnectionTested c' = false
  /\ isReadyToSubmit c' = false
  /\ submitResult c' = ""
  /\ mediaServerService c' = mediaServerService c
  /\ mediaServerId c' = mediaServerId c
  /\ dirty c' = dirty c
  /\ isSubmitting c' = false.
Proof.
  intros Hs c'. subst c'. handlers. rewrite Hs. simpl.
  repeat split; auto.
  - intros H. apply Z.eqb_eq in H. now apply selected_id.
  - intros H. apply Z.eqb_eq. unfold mediaServer. now apply selected_id.
Qed.

Lemma hydration_fills_form_witness :
  mediaServerCreate
    (state (mediaServerEffect
              (state (mediaServerIDeffect demoOpened))))
  = MediaServerRead.asCreate (demoServer 2 "Attic")
  /\ isConnectionTested
       (state (mediaServerEffect demoCreateTested)) = false.
Proof.
  split.
  - destruct (hydration_fills_form
                (state (mediaServerIDeffect demoOpened)) eq_refl)
      as (_ & H & _).
    exact H.
  - destruct (hydration_fills_form demoCreateTested eq_refl)
      as (_ & _ & _ & H & _).
    exact H.
Defined.

(** X5. While a submission is in flight the effect on the selected server
    does nothing at all, so a reload of the snapshot cannot overwrite the
    form that is being sent; and in every state, running the effect a
    second time changes nothing more. *)
Theorem hydration_idempotent (c : t) :
  (isSubmitting c = true -> mediaServerEffect c = (tt, c, []))
  /\ state (mediaServerEffect (state (mediaServerEffect c)))
     = state (mediaServerEffect c).
Proof.
  split.
  - intros Hs. handlers. rewrite Hs. reflexivity.
  - handlers. destruct (isSubmitting c) eqn:Hs; simpl; rewrite Hs; reflexivity.
Qed.

Lemma hydration_idempotent_witness :
  mediaServerEffect demoSubmitting = (tt, demoSubmitting, []).
Proof.
  destruct (hydration_idempotent demoSubmitting) as [H _].
  apply H. reflexivity.
Defined.

(** *** The flags over a whole run *)

Lemma step_keeps_ready (e : Event) (c : t) :
  isReadyToSubmit c = isConnectionTested c ->
  isReadyToSubmit (state (step e c)) = isConnectionTested (state (step e c)).
Proof.
  intros Hc. destruct e; handlers; branches; auto.
Qed.

(** X6. In every state the view can reach, [isReadyToSubmit] and
    [isConnectionTested] have the same value. *)
Theorem ready_mirrors_tested (c : t) :
  reachable c -> isReadyToSubmit c = isConnectionTested c.
Proof.
  intros (svc & es & ->).
  assert (G : forall c0, isReadyToSubmit c0 = isConnectionTested c0 ->
                isReadyToSubmit (state (run es c0))
                = isConnectionTested (state (run es c0))).
  { induction es as [|e es IH]; intros c0 H0; [exact H0|].
    simpl. rewrite state_bind. apply IH. now apply step_keeps_ready. }
  apply G. reflexivity.
Qed.

Lemma ready_mirrors_tested_witness :
  isReadyToSubmit demoCreateTested = isConnectionTested demoCreateTested.
Proof.
  apply (ready_mirrors_tested demoCreateTested).
  exists (MediaServerService.create "2025-01-01T00:00:00.000Z").
  exists [InputBound (-1); ResourceLoaded []; RunMediaServerIDeffect;
          RunMediaServerEffect; FieldInput demoModel;
          Submit; TestNext "Connection successful"].
  vm_compute. reflexivity.
Defined.




Lemma submitCalls_app (a b : list Effect) :
  List.length (filter isSubmitCall (a ++ b)%list)
  = (List.length (filter isSubmitCall a) + List.length (filter isSubmitCall b))%nat.
Proof. now rewrite filter_app, List.length_app. Qed.

(** A step makes a create or update call only out of the room there is,
    and only a failure makes room again. *)
Lemma step_room (e : Event) (c : t) :
  (List.length (filter isSubmitCall (effects (step e c))) + room (state (step e c))
   <= room c + (if isSubmitError e then 1 else 0))%nat.
Proof.
  unfold room. destruct e; handlers; branches; simpl; lia.
Qed.

Lemma run_room (es : list Event) (c : t) :
  (List.length (filter isSubmitCall (effects (run es c))) + room (state (run es c))
   <= room c + List.length (filter isSubmitError es))%nat.
Proof.
  revert c. induction es as [|e es IH]; intros c.
  - unfold run, ret, effects, state. simpl. lia.
  - cbn [run]. rewrite effects_bind, state_bind, submitCalls_app.
    pose proof (step_room e c) as H1.
    pose proof (IH (state (step e c))) as H2.
    cbn [filter]. destruct (isSubmitError e); simpl in *; lia.
Qed.

(** X8. Over any run of the view from its construction, the create and
    update calls number at most one more than the failures of such calls:
    a second call is made only after the one in flight has failed. *)
Theorem one_submission_in_flight (svc : MediaServerService.t) (es : list Event) :
  (List.length (filter isSubmitCall (effects (run es (create svc))))
   <= 1 + List.length (filter isSubmitError es))%nat.
Proof.
  pose proof (run_room es (create svc)) as H.
  unfold room at 2 in H. simpl in H. lia.
Qed.

(** X9. Every HTTP call of the view has a known origin.  A test, create
    or update call is made by a submit and carries the form model as it
    stands, which passes the form rules; a create or update call is made
    only when none is in flight, a test call only while the connection is
    untested.  A delete call is made by a confirmed delete, for the id of
    the view, which the snapshot holds.  The list is fetched again only
    after a delete has succeeded and when the timer fires.  No refresh call
    is made. *)
Theorem http_call_origin (e : Event) (c : t) (call : HttpCall) :
  In (Http call) (effects (step e c)) -> callOrigin e c call.
Proof.
  unfold callOrigin.
  destruct e; handlers; branches; simpl;
    intros H; repeat (destruct H as [H|H]; try discriminate H);
    try contradiction;
    rewrite ?negb_false_iff, ?negb_true_iff in *;
    inversion H; subst; simpl; repeat split; auto;
    try (now apply existsb_present).
Qed.

Lemma http_call_origin_witness :
  callOrigin Submit demoFilledIn (PostTest demoModel)
  /\ callOrigin ConfirmDelete demoOpened (DeleteMediaServer 2).
Proof.
  split.
  - apply (http_call_origin Submit demoFilledIn). vm_compute. left. reflexivity.
  - apply (http_call_origin ConfirmDelete demoOpened).
    vm_compute. right. left. reflexivity.
Defined.

(** X10. The view navigates to the list route and nowhere else, and only
    from the effect on the id, from a cancel and when the timer fires. *)
Theorem navigates_to_list_only (e : Event) (c : t) (path : string) :
  In (Navigate path) (effects (step e c)) ->
  path = listRoute
  /\ (e = RunMediaServerIDeffect \/ e = Cancel \/ e = ConfirmCancel
      \/ e = TimeoutFired).
Proof.
  destruct e; handlers; branches; simpl;
    intros H; repeat (destruct H as [H|H]; try discriminate H);
    try contradiction; inversion H; subst; split; auto.
Qed.

Lemma navigates_to_list_only_witness :
  "/settings/mediaservers" = listRoute
  /\ (Cancel = RunMediaServerIDeffect \/ Cancel = Cancel
      \/ Cancel = ConfirmCancel \/ Cancel = TimeoutFired).
Proof.
  apply (navigates_to_list_only Cancel demoOpened).
  vm_compute. left. reflexivity.
Defined.

(** X11. Every notification of the view is the error about a missing
    server, for the id of the view, which is not -1 and which the
    snapshot does not hold; it comes from the effect on the id, once the
    snapshot is loaded, or from a confirmed delete. *)
Theorem toast_origin (e : Event) (c : t) (message kind : string) :
  In (ShowToast message kind) (effects (step e c)) ->
  ShowToast message kind = missingToast (mediaServerId c)
  /\ mediaServerId c <> -1
  /\ absent (mediaServerService c) (mediaServerId c)
  /\ ((e = RunMediaServerIDeffect /\ isLoading c = false)
      \/ e = ConfirmDelete).
Proof.
  unfold missingToast, isLoading.
  destruct e; handlers; branches; simpl;
    intros H; repeat (destruct H as [H|H]; try discriminate H);
    try contradiction;
    rewrite ?negb_false_iff, ?negb_true_iff in *;
    inversion H; subst; repeat split; auto;
    try (now apply Z.eqb_neq); try (now apply existsb_absent).
Qed.

Lemma toast_origin_witness :
  mediaServerId demoUnknownId <> -1
  /\ absent (mediaServerService demoUnknownId) (mediaServerId demoUnknownId).
Proof.
  destruct (toast_origin RunMediaServerIDeffect demoUnknownId
              "Media Server with ID '7' does not exist." "error")
    as (_ & H1 & H2 & _).
  - vm_compute. left. reflexivity.
  - split; [exact H1 | exact H2].
Defined.

(** *** Entry and the target of the service *)

(** X12. While the snapshot is loading the effect on the id does nothing.
    Whenever it changes the id the service targets, the new target is the
    id of the view, and that id is -1 or the id of a server the snapshot
    holds; the view's own fields other than [isCreate] are untouched, and
    [isCreate] can only be switched on. *)
Theorem entry_targets_known_ids (c : t) :
  let c' := state (mediaServerIDeffect c) in
  (isLoading c = true -> mediaServerIDeffect c = (tt, c, []))
  /\ (mediaServerID (mediaServerService c')
      <> mediaServerID (mediaServerService c) ->
      mediaServerID (mediaServerService c') = mediaServerId c
      /\ (mediaServerId c = -1
          \/ present (mediaServerService c) (mediaServerId c)))
  /\ mediaServerCreate c' = mediaServerCreate c
  /\ isConnectionTested c' = isConnectionTested c
  /\ isSubmitting c' = isSubmitting c
  /\ (isCreate c = true -> isCreate c' = true).
Proof.
  intros c'. subst c'. unfold isLoading. split; [|split].
  - intros Hl. handlers. rewrite Hl. reflexivity.
  - handlers. branches; intros H; try congruence.
    + split; [reflexivity|]. left. now apply Z.eqb_eq.
    + split; [reflexivity|]. right. now apply existsb_present.
  - handlers. branches; auto.
Qed.

Lemma entry_targets_known_ids_witness :
  mediaServerID (mediaServerService (state (mediaServerIDeffect demoOpened)))
  = 2
  /\ (mediaServerId demoOpened = -1
      \/ present (mediaServerService demoOpened) (mediaServerId demoOpened)).
Proof.
  destruct (entry_targets_known_ids demoOpened) as (_ & H & _).
  apply H. vm_compute. discriminate.
Defined.

Lemma selected_unique (svc : MediaServerService.t) (x : MediaServerRead.t) :
  uniqueIds svc -> holds svc (mediaServerID svc) x ->
  selectedMediaServer svc = x.
Proof.
  intros Hu [Hin Hid].
  destruct (present_find svc) as [y Hy]; [now exists x|].
  rewrite (selected_found svc y Hy).
  pose proof (find_some _ _ Hy) as [Hyin Hyid]. apply Z.eqb_eq in Hyid.
  apply (unique_by_id (mediaServersResource_value svc)); auto; congruence.
Qed.

(** X13. Opening the view on the id of a server the loaded snapshot
    holds, with ids unique and nothing in flight: the two effects target
    that id and fill the form with the fields of that server, the view is
    in edit mode for an id other than -1, untested, and nothing is
    notified, redirected or sent. *)
Theorem open_existing (c : t) (x : MediaServerRead.t) :
  isLoading c = false -> isSubmitting c = false ->
  mediaServerId c <> -1 ->
  uniqueIds (mediaServerService c) ->
  holds (mediaServerService c) (mediaServerId c) x ->
  let r := run [RunMediaServerIDeffect; RunMediaServerEffect] c in
  effects r = [MarkForCheck]
  /\ mediaServerID (mediaServerService (state r)) = mediaServerId c
  /\ mediaServer (state r) = x
  /\ mediaServerCreate (state r) = MediaServerRead.asCreate x
  /\ isCreate (state r) = false
  /\ isConnectionTested (state r) = false.
Proof.
  intros Hl Hs Hid Hu Hx r.
  assert (Hp : present (mediaServerService c) (mediaServerId c))
    by (now exists x).
  assert (Hsel : selectedMediaServer
                   (set_mediaServerID (mediaServerId c) (mediaServerService c))
                 = x).
  { apply selected_unique; assumption. }
  assert (Hxid : (MediaServerRead.id x =? -1) = false).
  { destruct Hx as [_ Hx]. apply Z.eqb_neq. congruence. }
  unfold isLoading in Hl. apply existsb_present in Hp.
  apply Z.eqb_neq in Hid.
  subst r. unfold run, mediaServer. handlers.
  rewrite Hl, Hid. simpl. rewrite Hp. simpl. rewrite Hs. simpl.
  unfold mediaServer. simpl. rewrite Hsel, Hxid.
  repeat split.
Qed.

Lemma open_existing_witness :
  mediaServerCreate
    (state (run [RunMediaServerIDeffect; RunMediaServerEffect] demoOpened))
  = MediaServerRead.asCreate (demoServer 2 "Attic")
  /\ isCreate
       (state (run [RunMediaServerIDeffect; RunMediaServerEffect] demoOpened))
     = false.
Proof.
  assert (Hu : uniqueIds (mediaServerService demoOpened)).
  { unfold uniqueIds. simpl. repeat constructor; simpl; intuition discriminate. }
  assert (Hx : holds (mediaServerService demoOpened) (mediaServerId demoOpened)
                 (demoServer 2 "Attic")).
  { split; [simpl; auto | reflexivity]. }
  assert (Hid : mediaServerId demoOpened <> -1) by (simpl; lia).
  destruct (open_existing demoOpened (demoServer 2 "Attic")
              eq_refl eq_refl Hid Hu Hx) as (_ & _ & _ & H1 & H2 & _).
  split; [exact H1 | exact H2].
Defined.

(** *** What the view leaves alone *)

Lemma step_keeps_snapshot (e : Event) (c : t) :
  (forall servers, e <> ResourceLoaded servers) ->
  mediaServersResource_value (mediaServerService (state (step e c)))
  = mediaServersResource_value (mediaServerService c)
  /\ constructedAt (mediaServerService (state (step e c)))
     = constructedAt (mediaServerService c).
Proof.
  intros Hne.
  destruct e; try (now exfalso; eapply Hne);
    handlers; branches; split; reflexivity.
Qed.

Lemma step_keeps_constructedAt (e : Event) (c : t) :
  constructedAt (mediaServerService (state (step e c)))
  = constructedAt (mediaServerService c).
Proof.
  destruct e; handlers; branches; reflexivity.
Qed.

(** X14. The view never patches the snapshot: over any run in which no
    fetched list arrives, the snapshot is what it was, whatever else
    happens (submits, answers, deletes, reloads); and over every run the
    placeholder of the service stays the same value. *)
Theorem snapshot_only_replaced_by_fetch (es : list Event) (c : t) :
  ((forall servers, ~ In (ResourceLoaded servers) es) ->
   mediaServersResource_value (mediaServerService (state (run es c)))
   = mediaServersResource_value (mediaServerService c))
  /\ newMediaServer (mediaServerService (state (run es c)))
     = newMediaServer (mediaServerService c).
Proof.
  split.
  - revert c. induction es as [|e es IH]; intros c Hno; [reflexivity|].
    cbn [run]. rewrite state_bind. rewrite IH.
    + apply step_keeps_snapshot. intros servers ->.
      apply (Hno servers). now left.
    + intros servers Hin. apply (Hno servers). now right.
  - unfold newMediaServer. f_equal.
    revert c. induction es as [|e es IH]; intros c; [reflexivity|].
    cbn [run]. rewrite state_bind, IH. apply step_keeps_constructedAt.
Qed.

Lemma snapshot_only_replaced_by_fetch_witness :
  mediaServersResource_value
    (mediaServerService
       (state (run [ConfirmDelete; DeleteNext; TimeoutFired] demoOpened)))
  = [demoServer 1 "Home"; demoServer 2 "Attic"].
Proof.
  destruct (snapshot_only_replaced_by_fetch
              [ConfirmDelete; DeleteNext; TimeoutFired] demoOpened) as [H _].
  apply H. intros servers Hin. simpl in Hin.
  destruct Hin as [Hin|[Hin|[Hin|[]]]]; discriminate Hin.
Defined.

(** *** Editing after the test *)

Lemma step_keeps_mark (e : Event) (c : t) :
  e <> RunMediaServerEffect ->
  isConnectionTested c = true ->
  isConnectionTested (state (step e c)) = true.
Proof.
  intros Hne Ht. destruct e; try congruence; handlers; branches; auto.
Qed.

(** X15. Once a test has succeeded, [isConnectionTested] stays set until
    the form is filled again from the selected server; typing into the
    form does not clear it.  So a form edited into another valid model is
    sent by the next submit as it then stands, with no test call for it. *)
Theorem edit_after_test_is_not_retested (c : t) (model : MediaServerCreate.t) :
  isConnectionTested c = true -> isSubmitting c = false ->
  schema model = true ->
  let r := run [FieldInput model; Submit] c in
  (forall e, e <> RunMediaServerEffect ->
             isConnectionTested (state (step e c)) = true)
  /\ effects r
     = [if isCreate c then Http (PostMediaServer model)
        else Http (PutMediaServer (mediaServerId c)
                     (MediaServerUpdate.ofCreate model))].
Proof.
  intros Ht Hs Hv r. subst r.
  split; [intros e He; now apply step_keeps_mark|].
  unfold run. handlers.
  repeat (progress (rewrite ?Hv, ?Ht, ?Hs; simpl)).
  destruct (isCreate c); simpl;
    repeat (progress (rewrite ?Hv, ?Ht, ?Hs; simpl)); reflexivity.
Qed.

Lemma edit_after_test_is_not_retested_witness :
  effects (run [FieldInput demoOtherModel; Submit] demoCreateTested)
  = [Http (PostMediaServer demoOtherModel)].
Proof.
  destruct (edit_after_test_is_not_retested demoCreateTested demoOtherModel
              eq_refl eq_refl eq_refl) as [_ H].
  exact H.
Defined.

(* ===================================================================== *)
(** ** The list view *)
(* ===================================================================== *)

(** X16. The logo does not depend on the server type: every text, one of
    the three known types or not, gets the one image. *)
Theorem getServerTypeLogo_constant (serverType : string) :
  ShowMediaServersComponent.getServerTypeLogo serverType
  = "assets/trailarr-64.png".
Proof.
  unfold ShowMediaServersComponent.getServerTypeLogo.
  branches; reflexivity.
Qed.
